(** * DataSource admin API (backend/app/api/admin_routes/data_source.py)

    A shallow embedding of the four admin handlers
    [create_datasource], [list_datasources], [get_datasource] and
    [get_datasource_overview].  The handlers are programs over the
    interface of their collaborators (the ORM session, the pagination helper
    and the task dispatcher); an interpreter gives those operations their
    meaning on a relational store and records the state in which every
    operation is issued. *)

From stdpp Require Import base decidable numbers option list strings.
From stdpp Require Import sorting gmap fin_maps.

#[local] Set Warnings "-register-all".

(** ** Request payloads *)

(** A JSON value, the content of the [config] column. *)
Inductive json : Type :=
  | JNull
  | JBool (b : bool)
  | JNumber (n : Z)
  | JString (s : string)
  | JArray (xs : list json)
  | JObject (fields : list (string * json)).

(** [config: dict | list] *)
Inductive Config : Type :=
  | ConfigDict (fields : list (string * json))
  | ConfigList (xs : list json).

(** ** Exceptions and HTTP status codes *)

Definition HTTP_200_OK : Z := 200%Z.
Definition HTTP_404_NOT_FOUND : Z := 404%Z.
Definition HTTP_500_INTERNAL_SERVER_ERROR : Z := 500%Z.

(** [HTTPException] is the only exception the handlers raise themselves;
    [OperationalError] is what the task dispatcher raises when the broker
    does not take the message, [InvalidRequestError] what the session raises
    when asked to refresh an object that is not persistent. *)
Inductive Exn : Type :=
  | HTTPException (status_code : Z) (detail : string)
  | OperationalError
  | InvalidRequestError.

(** The outcome of a handler: the value it returns or the exception it
    raises. *)
Inductive Result (A : Type) : Type :=
  | Returned (a : A)
  | Raised (e : Exn).
Arguments Returned {A} _.
Arguments Raised {A} _.

(** What an operation is, for the record of a run. *)
Inductive Event : Type :=
  | EvAdd
  | EvCommit
  | EvRefresh
  | EvGet (pk : Z)
  | EvExec
  | EvDelay (data_source_id : Z).

(** ** Generic query helpers *)

Section queries.
Context {K : Type} `{EqDecision K}.

(** The order of a column, given by the rank the database gives its values. *)
Definition rank_le {A} (rank : A → Z) : relation A :=
  λ a b, (rank a ≤ rank b)%Z.

#[global] Instance rank_le_dec {A} (rank : A → Z) : RelDecision (rank_le rank).
Proof. intros a b. unfold rank_le. apply _. Defined.

#[global] Instance rank_le_trans {A} (rank : A → Z) : Transitive (rank_le rank).
Proof. intros a b c. unfold rank_le. lia. Qed.

#[global] Instance rank_le_total {A} (rank : A → Z) : Total (rank_le rank).
Proof. intros a b. unfold rank_le. lia. Qed.

(** [func.count(...)] of the rows of one group. *)
Definition count_of (k : K) (keys : list K) : nat :=
  length (filter (λ k', k' = k) keys).

(** [select(col, func.count(id)).group_by(col).order_by(col)] over the rows
    whose [col] values are [keys]: one result row per value present, with
    the number of rows that carry it, in ascending order of the value. *)
Definition group_by_count (rank : K → Z) (keys : list K) : list (K * nat) :=
  merge_sort (rank_le (λ r : K * nat, rank r.1))
    ((λ k, (k, count_of k keys)) <$> remove_dups keys).

(** The dict comprehension [{s: c for s, c in results}]: rows are inserted
    from first to last, a later row replacing an earlier one with its key. *)
Definition dict_of_rows {V} `{Countable K} (results : list (K * V)) : gmap K V :=
  foldl (λ d r, <[r.1 := r.2]> d) ∅ results.
End queries.

(** ** Pagination (fastapi_pagination) *)

(** [Params]: the page number, from 1, and the page size. *)
Record Params : Type := mkParams { page : nat; size : nat }.

Record Page (A : Type) : Type := mkPage {
  items : list A;
  total : nat;
  page_number : nat;
  page_size : nat;
  pages : nat
}.
Arguments mkPage {A} _ _ _ _ _.
Arguments items {A} _.
Arguments total {A} _.
Arguments page_number {A} _.
Arguments page_size {A} _.
Arguments pages {A} _.

(** [ceil(total / size)], and 0 for an empty page size. *)
Definition page_count (total size : nat) : nat :=
  match size with
  | O => O
  | S _ => (total + size - 1) `div` size
  end.

(** [params.to_raw_params()]: the limit and the offset of a page. *)
Definition raw_params (params : Params) : nat * nat :=
  (size params, size params * (page params - 1)).

(** The rows [.limit(l).offset(o)] keeps of an ordered result. *)
Definition limit_offset {A} (lo : nat * nat) (rows : list A) : list A :=
  take lo.1 (drop lo.2 rows).

Section admin.
(** The enumerations [DataSourceType], the two [index_status] enumerations
    and the type of user ids are declared in [app.models]; the handlers
    only store, compare and sort their values, so they are parameters
    here, the status enumerations with the rank the database sorts them
    by. *)
Context {DataSourceType UserId DocIndexStatus KgIndexStatus : Type}.
Context `{Countable DocIndexStatus} `{Countable KgIndexStatus}.
Context (doc_status_rank : DocIndexStatus → Z).
Context (kg_status_rank : KgIndexStatus → Z).

(** *** Data model *)

(** [class DataSourceCreate(BaseModel)] *)
Record DataSourceCreate : Type := mkDataSourceCreate {
  name : string;
  description : string;
  data_source_type : DataSourceType;
  config : Config;
  build_kg_index : bool
}.

Record User : Type := mkUser { user_id : UserId }.

(** Modelled from the spec: the [DataSource] table of [app.models], a row
    with its generated [id] and [created_at]. *)
Record DataSource : Type := mkDataSource {
  ds_id : Z;
  ds_name : string;
  ds_description : string;
  ds_data_source_type : DataSourceType;
  ds_config : Config;
  ds_build_kg_index : bool;
  ds_user_id : UserId;
  ds_created_at : Z
}.

(** Modelled from the spec: the [Document] table of [app.models]; a
    document belongs to the data source [doc_data_source_id]. *)
Record Document : Type := mkDocument {
  doc_id : Z;
  doc_data_source_id : Z;
  doc_index_status : DocIndexStatus
}.

(** Modelled from the spec: the [Chunk] table of [app.models]; a chunk
    belongs to the document [chunk_document_id] and has no data source
    column of its own. *)
Record Chunk : Type := mkChunk {
  chunk_id : Z;
  chunk_document_id : Z;
  chunk_index_status : KgIndexStatus
}.

(** The committed content of the database. *)
Record Store : Type := mkStore {
  data_sources : list DataSource;
  documents : list Document;
  chunks : list Chunk
}.

(** What a request can see and change: the database, the queue of the
    task dispatcher (the data source ids of the import jobs sent), whether
    the broker takes messages, and the database clock. *)
Record World : Type := mkWorld {
  db : Store;
  queue : list Z;
  broker_up : bool;
  clock : Z
}.

(** *** The ORM session *)

(** The object [DataSource(name=..., ..., user_id=...)] before it is
    flushed: it has no [id] and no [created_at] yet. *)
Record NewDataSource : Type := mkNewDataSource {
  new_name : string;
  new_description : string;
  new_data_source_type : DataSourceType;
  new_config : Config;
  new_build_kg_index : bool;
  new_user_id : UserId
}.

(** An object the session tracks is pending (added, not yet inserted) or
    persistent (it has a row, known by its primary key).  A Python
    reference to a tracked object is its position in the session. *)
Inductive ObjState : Type :=
  | Pending (o : NewDataSource)
  | Persistent (pk : Z).

Definition Session : Type := list ObjState.
Definition Handle : Type := nat.

Record Cfg : Type := mkCfg { world : World; session : Session }.

(** Modelled from the spec: the generated [id] of a new row, an
    auto-increment key above every key of the table. *)
Definition next_id (rows : list DataSource) : Z :=
  (foldr Z.max 0 (ds_id <$> rows) + 1)%Z.

Definition row_of (pk now : Z) (o : NewDataSource) : DataSource :=
  {| ds_id := pk;
     ds_name := new_name o;
     ds_description := new_description o;
     ds_data_source_type := new_data_source_type o;
     ds_config := new_config o;
     ds_build_kg_index := new_build_kg_index o;
     ds_user_id := new_user_id o;
     ds_created_at := now |}.

(** The flush of a commit: every pending object is inserted, in the order
    the objects were added, and becomes persistent. *)
Fixpoint flush (now : Z) (sess : Session) (rows : list DataSource)
  : Session * list DataSource :=
  match sess with
  | [] => ([], rows)
  | Pending o :: rest =>
      let pk := next_id rows in
      let '(sess', rows') := flush now rest (rows ++ [row_of pk now o]) in
      (Persistent pk :: sess', rows')
  | Persistent pk :: rest =>
      let '(sess', rows') := flush now rest rows in
      (Persistent pk :: sess', rows')
  end.

(** [session.get(DataSource, pk)] *)
Definition get_row (pk : Z) (st : Store) : option DataSource :=
  snd <$> list_find (λ ds, ds_id ds = pk) (data_sources st).

(** *** Programs over the collaborators *)

Inductive Op : Type → Type :=
  | SessionAdd (o : NewDataSource) : Op Handle
  | SessionCommit : Op unit
  | SessionRefresh (h : Handle) : Op DataSource
  | SessionGet (pk : Z) : Op (option DataSource)
  | SessionExec {A : Type} (statement : Store → A) : Op A
  | Delay (data_source_id : Z) : Op unit.

Inductive Prog (A : Type) : Type :=
  | Ret (a : A)
  | Raise (e : Exn)
  | Do {B : Type} (op : Op B) (k : B → Prog A).
Arguments Ret {A} _.
Arguments Raise {A} _.
Arguments Do {A B} _ _.

Fixpoint prog_bind {A B} (k : A → Prog B) (p : Prog A) : Prog B :=
  match p with
  | Ret a => k a
  | Raise e => Raise e
  | Do op c => Do op (λ x, prog_bind k (c x))
  end.

#[local] Instance prog_mret : MRet Prog := λ A a, Ret a.
#[local] Instance prog_mbind : MBind Prog := λ A B k p, prog_bind k p.

Definition session_add (o : NewDataSource) : Prog Handle := Do (SessionAdd o) Ret.
Definition session_commit : Prog unit := Do SessionCommit Ret.
Definition session_refresh (h : Handle) : Prog DataSource := Do (SessionRefresh h) Ret.
Definition session_get (pk : Z) : Prog (option DataSource) := Do (SessionGet pk) Ret.
Definition session_exec {A} (statement : Store → A) : Prog A := Do (SessionExec statement) Ret.
(** [import_documents_from_datasource.delay(data_source_id)] *)
Definition import_documents_from_datasource_delay (data_source_id : Z) : Prog unit :=
  Do (Delay data_source_id) Ret.

(** *** Meaning of the operations *)

Definition set_db (st : Store) (w : World) : World :=
  {| db := st; queue := queue w; broker_up := broker_up w; clock := clock w |}.

Definition set_queue (q : list Z) (w : World) : World :=
  {| db := db w; queue := q; broker_up := broker_up w; clock := clock w |}.

Definition step_op {B} (op : Op B) (c : Cfg) : Result B * Cfg :=
  match op in Op T return Result T * Cfg with
  | SessionAdd o =>
      (Returned (length (session c)),
       {| world := world c; session := session c ++ [Pending o] |})
  | SessionCommit =>
      let st := db (world c) in
      let '(sess', rows') := flush (clock (world c)) (session c) (data_sources st) in
      (Returned (),
       {| world := set_db {| data_sources := rows';
                             documents := documents st;
                             chunks := chunks st |} (world c);
          session := sess' |})
  | SessionRefresh h =>
      match session c !! h with
      | Some (Persistent pk) =>
          match get_row pk (db (world c)) with
          | Some ds => (Returned ds, c)
          | None => (Raised InvalidRequestError, c)
          end
      | _ => (Raised InvalidRequestError, c)
      end
  | SessionGet pk => (Returned (get_row pk (db (world c))), c)
  | SessionExec statement => (Returned (statement (db (world c))), c)
  | Delay data_source_id =>
      if broker_up (world c)
      then (Returned (),
            {| world := set_queue (queue (world c) ++ [data_source_id]) (world c);
               session := session c |})
      else (Raised OperationalError, c)
  end.

Definition event_of {B} (op : Op B) : Event :=
  match op with
  | SessionAdd _ => EvAdd
  | SessionCommit => EvCommit
  | SessionRefresh _ => EvRefresh
  | SessionGet pk => EvGet pk
  | SessionExec _ => EvExec
  | Delay i => EvDelay i
  end.

(** A run: the operations issued, each with the world it is issued in, the
    result, and the configuration at the end.  An operation that raises
    ends the run: the handlers catch nothing. *)
Fixpoint run {A} (p : Prog A) (c : Cfg) : list (Event * World) * Result A * Cfg :=
  match p with
  | Ret a => ([], Returned a, c)
  | Raise e => ([], Raised e, c)
  | Do op k =>
      match step_op op c with
      | (Returned b, c') =>
          let '(tr, r, c'') := run (k b) c' in
          ((event_of op, world c) :: tr, r, c'')
      | (Raised e, c') => ([(event_of op, world c)], Raised e, c')
      end
  end.

(** A request: the handler runs in a session of its own ([SessionDep]),
    which is closed when the request ends. *)
Definition serve {A} (handler : Prog A) (w : World)
  : list (Event * World) * Result A * World :=
  let '(tr, r, c) := run handler {| world := w; session := [] |} in
  (tr, r, world c).

Definition trace_of {A} (x : list (Event * World) * Result A * World) := x.1.1.
Definition result_of {A} (x : list (Event * World) * Result A * World) := x.1.2.
Definition world_of {A} (x : list (Event * World) * Result A * World) := x.2.

(** The status code the caller sees: an [HTTPException] has its own, any
    other exception is an unhandled server error. *)
Definition response_status {A} (r : Result A) : Z :=
  match r with
  | Returned _ => HTTP_200_OK
  | Raised (HTTPException code _) => code
  | Raised _ => HTTP_500_INTERNAL_SERVER_ERROR
  end.

(** *** Statements *)

(** [select(DataSource).order_by(DataSource.created_at.desc())] *)
Definition created_at_desc : relation DataSource :=
  λ a b, (ds_created_at b ≤ ds_created_at a)%Z.

#[global] Instance created_at_desc_dec : RelDecision created_at_desc.
Proof. intros a b. unfold created_at_desc. apply _. Defined.

(** A SELECT as [paginate] runs it: as it is ([None]), or with
    [.limit(l).offset(o)] ([Some (l, o)]). *)
Definition Statement (A : Type) : Type := option (nat * nat) → Store → list A.

(** [ORDER BY created_at DESC] names no second key: the order of rows with
    the same [created_at] is the database's choice, and it may choose
    differently from one statement to the next.  [tie_order lo rows] is
    the order the database gives the rows of the table when it runs the
    statement with the limit and offset [lo]. *)
Context (tie_order : option (nat * nat) → list DataSource → list DataSource).

(** What [ORDER BY created_at DESC] promises of that order: the rows of the
    table, newest first. *)
Definition orders_by_created_at_desc : Prop :=
  ∀ lo rows,
    tie_order lo rows ≡ₚ rows
    ∧ StronglySorted created_at_desc (tie_order lo rows).

Definition select_datasources_order_by_created_at_desc : Statement DataSource :=
  λ lo st,
    let rows := tie_order lo (data_sources st) in
    match lo with
    | None => rows
    | Some lo => limit_offset lo rows
    end.

(** [.where(Document.data_source_id == data_source_id)] *)
Definition documents_where (data_source_id : Z) (st : Store) : list Document :=
  filter (λ d, doc_data_source_id d = data_source_id) (documents st).

(** [Chunk.document.has(Document.data_source_id == data_source_id)]: there
    is a document row the chunk refers to that satisfies the criterion. *)
Definition document_has (data_source_id : Z) (st : Store) (c : Chunk) : Prop :=
  Exists (λ d, doc_id d = chunk_document_id c
               ∧ doc_data_source_id d = data_source_id) (documents st).

#[local] Instance document_has_dec i st c : Decision (document_has i st c).
Proof. unfold document_has. apply _. Defined.

Definition chunks_where (data_source_id : Z) (st : Store) : list Chunk :=
  filter (document_has data_source_id st) (chunks st).

(** [select(func.count(Document.id)).where(...)] *)
Definition select_count_documents (data_source_id : Z) (st : Store) : nat :=
  length (documents_where data_source_id st).

(** [select(func.count(Chunk.id)).where(Chunk.document.has(...))] *)
Definition select_count_chunks (data_source_id : Z) (st : Store) : nat :=
  length (chunks_where data_source_id st).

(** [select(Document.index_status, func.count(Document.id)).where(...)
     .group_by(Document.index_status).order_by(Document.index_status)] *)
Definition select_document_status_counts (data_source_id : Z) (st : Store)
  : list (DocIndexStatus * nat) :=
  group_by_count doc_status_rank
    (doc_index_status <$> documents_where data_source_id st).

(** [select(Chunk.index_status, func.count(Chunk.id))
     .where(Chunk.document.has(...))
     .group_by(Chunk.index_status).order_by(Chunk.index_status)] *)
Definition select_chunk_status_counts (data_source_id : Z) (st : Store)
  : list (KgIndexStatus * nat) :=
  group_by_count kg_status_rank
    (chunk_index_status <$> chunks_where data_source_id st).

(** [paginate(session, query, params)]: the count of the query and the
    rows of the page asked for. *)
Definition paginate {A} (query : Statement A) (params : Params) : Prog (Page A) :=
  total ← session_exec (λ st, length (query None st));
  items ← session_exec (query (Some (raw_params params)));
  mret {| items := items;
          total := total;
          page_number := page params;
          page_size := size params;
          pages := page_count total (size params) |}.

(** *** The handlers *)

(** [POST /admin/datasources] *)
Definition create_datasource (user : User) (request : DataSourceCreate)
  : Prog DataSource :=
  let data_source :=
    {| new_name := name request;
       new_description := description request;
       new_data_source_type := data_source_type request;
       new_config := config request;
       new_build_kg_index := build_kg_index request;
       new_user_id := user_id user |} in
  ref ← session_add data_source;
  _ ← session_commit;
  data_source ← session_refresh ref;
  _ ← import_documents_from_datasource_delay (ds_id data_source);
  mret data_source.

(** [GET /admin/datasources] *)
Definition list_datasources (user : User) (params : Params)
  : Prog (Page DataSource) :=
  paginate select_datasources_order_by_created_at_desc params.

Definition not_found {A} : Prog A :=
  Raise (HTTPException HTTP_404_NOT_FOUND "Data source not found").

(** [GET /admin/datasources/{data_source_id}] *)
Definition get_datasource (user : User) (data_source_id : Z) : Prog DataSource :=
  data_source ← session_get data_source_id;
  match data_source with
  | None => not_found
  | Some data_source => mret data_source
  end.

(** The response of the overview endpoint,
    [{"documents": {"total": _}, "chunks": {"total": _},
      "kg_index": _, "vector_index": _}]. *)
Record Overview : Type := mkOverview {
  documents_total : nat;
  chunks_total : nat;
  kg_index : gmap KgIndexStatus nat;
  vector_index : gmap DocIndexStatus nat
}.

(** [GET /admin/datasources/{data_source_id}/overview] *)
Definition get_datasource_overview (user : User) (data_source_id : Z)
  : Prog Overview :=
  data_source ← session_get data_source_id;
  match data_source with
  | None => not_found
  | Some data_source =>
      documents_count ← session_exec (select_count_documents data_source_id);
      chunks_count ← session_exec (select_count_chunks data_source_id);
      results ← session_exec (select_document_status_counts data_source_id);
      let vector_index_status := dict_of_rows results in
      kg_index_status ←
        (if ds_build_kg_index data_source
         then results ← session_exec (select_chunk_status_counts data_source_id);
              mret (dict_of_rows results)
         else mret ∅);
      mret {| documents_total := documents_count;
              chunks_total := chunks_count;
              kg_index := kg_index_status;
              vector_index := vector_index_status |}
  end.

(** The sum of the counts of a status mapping, [sum(d.values())]. *)
Definition values_sum {K} `{Countable K} (d : gmap K nat) : nat :=
  sum_list ((map_to_list d).*2).

(** The table constraint of a primary key: no two rows share an [id]. *)
Definition primary_key_unique (st : Store) : Prop :=
  NoDup (ds_id <$> data_sources st).

(** A chunk belongs to a data source through its parent document: some
    document row is the chunk's parent and belongs to the data source. *)
Definition chunk_belongs_to (st : Store) (data_source_id : Z) (c : Chunk) : Prop :=
  ∃ d, d ∈ documents st
       ∧ doc_id d = chunk_document_id c
       ∧ doc_data_source_id d = data_source_id.

#[local] Instance chunk_belongs_to_dec st i c : Decision (chunk_belongs_to st i c).
Proof.
  refine (cast_if (decide (document_has i st c)));
    unfold chunk_belongs_to, document_has in *;
    rewrite Exists_exists in *; naive_solver.
Defined.

(** The number of documents of a data source in a given status, and the
    number of its chunks in a given status. *)
Definition documents_in_status (st : Store) (i : Z) (s : DocIndexStatus) : nat :=
  length (filter (λ d, doc_data_source_id d = i ∧ doc_index_status d = s)
                 (documents st)).

Definition chunks_in_status (st : Store) (i : Z) (s : KgIndexStatus) : nat :=
  length (filter (λ c, chunk_belongs_to st i c ∧ chunk_index_status c = s)
                 (chunks st)).

(** A count as an entry of a status mapping: no entry for a count of 0. *)
Definition entry_of_count (n : nat) : option nat :=
  match n with O => None | S _ => Some n end.

(** The mapping the overview reports for the knowledge-graph index. *)
Definition kg_index_of (ds : DataSource) (i : Z) (st : Store) : gmap KgIndexStatus nat :=
  if ds_build_kg_index ds
  then dict_of_rows (select_chunk_status_counts i st)
  else ∅.

(** The data source ids of the import jobs a run dispatches, in order. *)
Definition dispatched (tr : list (Event * World)) : list Z :=
  omap (λ ew, match ew.1 with EvDelay i => Some i | _ => None end) tr.

(** The world after one more [DataSource] row is committed. *)
Definition with_row (row : DataSource) (w : World) : World :=
  set_db {| data_sources := data_sources (db w) ++ [row];
            documents := documents (db w);
            chunks := chunks (db w) |} w.

(** The row a create request adds to the table: the fields of the request
    and the caller's id, under the generated [id] and [created_at]. *)
Definition created_row (user : User) (request : DataSourceCreate) (w : World)
  : DataSource :=
  row_of (next_id (data_sources (db w))) (clock w)
    {| new_name := name request;
       new_description := description request;
       new_data_source_type := data_source_type request;
       new_config := config request;
       new_build_kg_index := build_kg_index request;
       new_user_id := user_id user |}.

(** The items of the page that [list_datasources] returns for page [p] of
    size [n]. *)
Definition page_items (user : User) (w : World) (n p : nat) : list DataSource :=
  match result_of (serve (list_datasources user {| page := p; size := n |}) w) with
  | Returned pg => items pg
  | Raised _ => []
  end.


(** The world after the import pipeline stores one more document. *)
Definition with_document (d : Document) (w : World) : World :=
  set_db {| data_sources := data_sources (db w);
            documents := documents (db w) ++ [d];
            chunks := chunks (db w) |} w.

(** The foreign key of [Document.data_source_id]: every document refers to
    a stored data source. *)
Definition documents_reference_data_sources (st : Store) : Prop :=
  ∀ d, d ∈ documents st →
       ∃ ds, ds ∈ data_sources st ∧ ds_id ds = doc_data_source_id d.

(** All pages of size [n], from page 1 to the last, one after the other. *)
Definition all_pages (user : User) (w : World) (n : nat) : list DataSource :=
  concat (page_items user w n
            <$> seq 1 (page_count (length (data_sources (db w))) n)).

(** The order of [created_at] values, newest first. *)
Definition newest_first : relation Z := λ a b, (b ≤ a)%Z.

#[global] Instance newest_first_dec : RelDecision newest_first.
Proof. intros a b. unfold newest_first. apply _. Defined.

(** The [created_at] values of the table, newest first. *)
Definition created_at_newest_first (st : Store) : list Z :=
  merge_sort newest_first (ds_created_at <$> data_sources st).

(** The database orders the rows of the table the same way in every
    statement: rows of equal [created_at] come in one order, whatever the
    limit and offset. *)
Definition ties_ordered_alike (rows : list DataSource) : Prop :=
  ∀ lo, tie_order lo rows = tie_order None rows.


(** A program that only reads: it returns, raises, or issues a
    [session.get] or a SELECT and goes on with a program that only reads. *)
Inductive read_only {A} : Prog A → Prop :=
  | read_only_ret a : read_only (Ret a)
  | read_only_raise e : read_only (Raise e)
  | read_only_get pk k :
      (∀ r, read_only (k r)) → read_only (Do (SessionGet pk) k)
  | read_only_exec {B} (statement : Store → B) k :
      (∀ r, read_only (k r)) → read_only (Do (SessionExec statement) k).

(** ** Facts about the query helpers *)

Section query_facts.
Context {K : Type} `{Countable K}.
Implicit Types (ks : list K) (k : K) (rank : K → Z).

Lemma dict_of_rows_snoc {V} (l : list (K * V)) r :
  dict_of_rows (l ++ [r]) = <[r.1 := r.2]> (dict_of_rows l).
Proof. unfold dict_of_rows. by rewrite foldl_snoc. Qed.

Lemma dict_of_rows_list_to_map {V} (l : list (K * V)) :
  dict_of_rows l = list_to_map (reverse l).
Proof.
  induction l as [|[i x] l IH] using rev_ind; [done|].
  rewrite dict_of_rows_snoc, reverse_snoc, list_to_map_cons. by rewrite IH.
Qed.

Lemma dict_of_rows_lookup {V} (l : list (K * V)) k v :
  NoDup (l.*1) → dict_of_rows l !! k = Some v ↔ (k, v) ∈ l.
Proof.
  intros Hnd. rewrite dict_of_rows_list_to_map.
  rewrite <- elem_of_list_to_map, elem_of_reverse; [done|].
  by rewrite fmap_reverse, reverse_Permutation.
Qed.

Lemma dict_of_rows_to_list {V} (l : list (K * V)) :
  NoDup (l.*1) → map_to_list (dict_of_rows l) ≡ₚ l.
Proof.
  intros Hnd. rewrite dict_of_rows_list_to_map.
  rewrite map_to_list_to_map.
  - apply reverse_Permutation.
  - by rewrite fmap_reverse, reverse_Permutation.
Qed.

Lemma group_by_count_perm rank ks :
  group_by_count rank ks ≡ₚ (λ k, (k, count_of k ks)) <$> remove_dups ks.
Proof. unfold group_by_count. apply merge_sort_Permutation. Qed.

Lemma group_by_count_keys rank ks :
  (group_by_count rank ks).*1 ≡ₚ remove_dups ks.
Proof.
  rewrite group_by_count_perm, <- list_fmap_compose.
  by rewrite (list_fmap_ext _ id) by done; rewrite list_fmap_id.
Qed.

Lemma group_by_count_NoDup rank ks : NoDup (group_by_count rank ks).*1.
Proof. rewrite group_by_count_keys. apply NoDup_remove_dups. Qed.

Lemma group_by_count_sorted rank ks :
  StronglySorted (rank_le (λ r : K * nat, rank r.1)) (group_by_count rank ks).
Proof. unfold group_by_count. apply StronglySorted_merge_sort; apply _. Qed.

Lemma elem_of_group_by_count rank ks k n :
  (k, n) ∈ group_by_count rank ks ↔ k ∈ ks ∧ n = count_of k ks.
Proof.
  rewrite group_by_count_perm, list_elem_of_fmap. split.
  - intros (k' & Heq & Hin). simplify_eq.
    split; [by apply elem_of_remove_dups|done].
  - intros [Hin ->]. exists k. by rewrite elem_of_remove_dups.
Qed.

Lemma count_of_cons k k' ks :
  count_of k (k' :: ks) = (if decide (k' = k) then 1 else 0) + count_of k ks.
Proof. unfold count_of. rewrite filter_cons. by case_decide. Qed.

Lemma count_of_pos k ks : k ∈ ks ↔ count_of k ks ≠ 0.
Proof.
  induction ks as [|k' ks IH].
  - split; [by intros ?%elem_of_nil | done].
  - rewrite count_of_cons, elem_of_cons. case_decide as Hk.
    + split; [lia | auto].
    + rewrite IH. cbn. split; [intros [?|?]; [congruence|done] | by right].
Qed.

(** The dict built from the grouped counts: a status has an entry exactly
    when some row carries it, and the entry is the number of such rows. *)
Lemma dict_of_group_by_count rank ks k :
  dict_of_rows (group_by_count rank ks) !! k = entry_of_count (count_of k ks).
Proof.
  pose proof (group_by_count_NoDup rank ks) as Hnd.
  destruct (dict_of_rows (group_by_count rank ks) !! k) as [n|] eqn:Hl.
  - apply dict_of_rows_lookup, elem_of_group_by_count in Hl as [Hin ->]; [|done].
    apply count_of_pos in Hin. by destruct (count_of k ks).
  - destruct (count_of k ks) as [|n] eqn:Hc; [done|].
    assert (k ∈ ks) as Hin by (apply count_of_pos; lia).
    assert (dict_of_rows (group_by_count rank ks) !! k = Some (count_of k ks)) as Hs.
    { apply dict_of_rows_lookup; [done|]. by apply elem_of_group_by_count. }
    congruence.
Qed.

Lemma sum_indicator k (l : list K) :
  NoDup l → k ∈ l →
  sum_list ((λ k', if decide (k = k') then 1 else 0) <$> l) = 1.
Proof.
  induction 1 as [|k' l Hnin Hnd IH]; [by intros ?%elem_of_nil|].
  intros [->|Hin]%elem_of_cons; cbn.
  - rewrite decide_True by done. f_equal.
    clear IH. induction l as [|k'' l IH]; [done|]. cbn.
    apply not_elem_of_cons in Hnin as [? ?]. apply NoDup_cons in Hnd as [? ?].
    rewrite decide_False by done. auto.
  - rewrite decide_False by (intros ->; done). auto.
Qed.

(** Over a duplicate-free list of keys that covers [ks], the counts of
    the keys add up to the number of rows. *)
Lemma sum_count_of (l : list K) ks :
  NoDup l → (∀ k, k ∈ ks → k ∈ l) →
  sum_list ((λ k, count_of k ks) <$> l) = length ks.
Proof.
  intros Hnd. induction ks as [|k' ks IH]; intros Hcov.
  - clear. induction l as [|k l IH]; [done|]. exact IH.
  - assert (sum_list ((λ k, count_of k (k' :: ks)) <$> l)
            = sum_list ((λ k, if decide (k' = k) then 1 else 0) <$> l)
              + sum_list ((λ k, count_of k ks) <$> l)) as ->.
    { clear. induction l as [|k l IHl]; [done|].
      rewrite !fmap_cons. cbn [sum_list_with id].
      rewrite count_of_cons, IHl. lia. }
    rewrite sum_indicator by (done || apply Hcov; set_solver).
    rewrite IH by (intros; apply Hcov; set_solver). done.
Qed.

Lemma values_sum_group_by_count rank ks :
  values_sum (dict_of_rows (group_by_count rank ks)) = length ks.
Proof.
  unfold values_sum.
  rewrite dict_of_rows_to_list by apply group_by_count_NoDup.
  rewrite group_by_count_perm, <- list_fmap_compose.
  rewrite (list_fmap_ext _ (λ k, count_of k ks)) by done.
  apply sum_count_of; [apply NoDup_remove_dups|].
  intros k. by rewrite elem_of_remove_dups.
Qed.

Lemma count_of_fmap_filter {A} (f : A → K) (P : A → Prop)
    `{∀ x, Decision (P x)} (l : list A) k :
  count_of k (f <$> filter P l) = length (filter (λ x, P x ∧ f x = k) l).
Proof.
  unfold count_of. induction l as [|x l IH]; [done|].
  rewrite !filter_cons. destruct (decide (P x)) as [HP|HP].
  - rewrite fmap_cons, filter_cons. destruct (decide (f x = k)).
    + rewrite decide_True by done. cbn. by rewrite IH.
    + rewrite decide_False by tauto. exact IH.
  - rewrite decide_False by tauto. exact IH.
Qed.
End query_facts.

(** ** Facts about the session *)

Lemma get_row_Some i st ds :
  get_row i st = Some ds → ds ∈ data_sources st ∧ ds_id ds = i.
Proof.
  unfold get_row. intros Hg. apply fmap_Some in Hg as ([n r] & Hf & ->).
  apply list_find_Some in Hf as (Hl & Hid & _).
  split; [by eapply list_elem_of_lookup_2 | done].
Qed.

Lemma get_row_None i st :
  get_row i st = None ↔ ∀ ds, ds ∈ data_sources st → ds_id ds ≠ i.
Proof.
  unfold get_row. rewrite fmap_None, list_find_None, Forall_forall. done.
Qed.

Lemma get_row_is_Some i st :
  is_Some (get_row i st) ↔ ∃ ds, ds ∈ data_sources st ∧ ds_id ds = i.
Proof.
  split.
  - intros [ds Hg]. exists ds. by apply get_row_Some.
  - intros (ds & Hin & Hid). destruct (get_row i st) eqn:Hg; [done|].
    rewrite get_row_None in Hg. by destruct (Hg ds Hin).
Qed.

(** Under the primary key constraint a lookup by [id] returns the row
    itself. *)
Lemma get_row_unique st ds :
  primary_key_unique st → ds ∈ data_sources st →
  get_row (ds_id ds) st = Some ds.
Proof.
  unfold primary_key_unique. intros Hnd Hin.
  destruct (get_row (ds_id ds) st) as [ds'|] eqn:Hg.
  - apply get_row_Some in Hg as [Hin' Hid]. f_equal.
    apply list_elem_of_lookup in Hin as [n Hn], Hin' as [n' Hn'].
    assert (n' = n) as ->; [|congruence].
    eapply NoDup_lookup; [exact Hnd| |]; rewrite list_lookup_fmap.
    + by rewrite Hn'.
    + by rewrite Hn, Hid.
  - rewrite get_row_None in Hg. by destruct (Hg ds Hin).
Qed.

Lemma serve_get_datasource user i w :
  serve (get_datasource user i) w
  = ([(EvGet i, w)],
     match get_row i (db w) with
     | Some ds => Returned ds
     | None => Raised (HTTPException HTTP_404_NOT_FOUND "Data source not found")
     end,
     w).
Proof.
  unfold serve, get_datasource. cbn. by destruct (get_row i (db w)).
Qed.

Lemma serve_get_datasource_overview user i w :
  serve (get_datasource_overview user i) w
  = match get_row i (db w) with
    | Some ds =>
        ((EvGet i, w) :: (EvExec, w) :: (EvExec, w) :: (EvExec, w)
           :: (if ds_build_kg_index ds then [(EvExec, w)] else []),
         Returned
           {| documents_total := select_count_documents i (db w);
              chunks_total := select_count_chunks i (db w);
              kg_index := kg_index_of ds i (db w);
              vector_index := dict_of_rows (select_document_status_counts i (db w)) |},
         w)
    | None =>
        ([(EvGet i, w)],
         Raised (HTTPException HTTP_404_NOT_FOUND "Data source not found"),
         w)
    end.
Proof.
  unfold serve, get_datasource_overview, kg_index_of. cbn.
  destruct (get_row i (db w)) as [ds|]; [|done]. cbn.
  by destruct (ds_build_kg_index ds).
Qed.

Lemma filter_none {A} (P : A → Prop) `{∀ x, Decision (P x)} (l : list A) :
  (∀ x, x ∈ l → ¬ P x) → filter P l = [].
Proof.
  induction l as [|x l IH]; intros Hn; [done|].
  rewrite filter_cons_False by (apply Hn; left).
  apply IH. intros y Hy. apply Hn. by right.
Qed.

Lemma chunks_where_belongs i st :
  chunks_where i st = filter (chunk_belongs_to st i) (chunks st).
Proof.
  unfold chunks_where. apply list_filter_iff. intros c.
  unfold document_has, chunk_belongs_to. rewrite Exists_exists. naive_solver.
Qed.

Lemma read_only_run {A} (p : Prog A) :
  read_only p →
  ∀ c, (run p c).2 = c ∧ Forall (λ ew, ew.2 = world c) (run p c).1.1.
Proof.
  induction 1 as [a|e|pk k _ IH|B q k _ IH]; intros c; cbn; [done|done| |].
  - destruct (IH (get_row pk (db (world c))) c) as [Hc Htr].
    destruct (run (k (get_row pk (db (world c)))) c) as [[tr r] c'].
    cbn in *. split; [done|]. by constructor.
  - destruct (IH (q (db (world c))) c) as [Hc Htr].
    destruct (run (k (q (db (world c)))) c) as [[tr r] c'].
    cbn in *. split; [done|]. by constructor.
Qed.

Lemma read_only_serve {A} (p : Prog A) w :
  read_only p →
  world_of (serve p w) = w ∧ Forall (λ ew, ew.2 = w) (trace_of (serve p w)).
Proof.
  intros Hro. unfold serve, world_of, trace_of.
  destruct (read_only_run p Hro {| world := w; session := [] |}) as [Hc Htr].
  destruct (run p _) as [[tr r] c']. cbn in *. by subst.
Qed.

Lemma read_only_list_datasources user params :
  read_only (list_datasources user params).
Proof. repeat constructor. Qed.

Lemma read_only_get_datasource user i : read_only (get_datasource user i).
Proof. constructor. intros [ds|]; constructor. Qed.

Lemma read_only_get_datasource_overview user i :
  read_only (get_datasource_overview user i).
Proof.
  constructor. intros [ds|]; [|constructor].
  cbn. destruct (ds_build_kg_index ds); repeat constructor.
Qed.

(** ** The overview endpoint *)

(** C1. For an existing data source id the overview returns: as
    [documents.total] the number of documents whose [data_source_id] is
    that id; as [chunks.total] the number of chunks whose parent document
    has that [data_source_id]; as [vector_index] the mapping that gives
    every [index_status] present among those documents its count and has
    no entry for a status with count 0. *)
Theorem overview_totals_and_vector_index user i w :
  (∃ ds, ds ∈ data_sources (db w) ∧ ds_id ds = i) →
  ∃ ov,
    result_of (serve (get_datasource_overview user i) w) = Returned ov
    ∧ documents_total ov
      = length (filter (λ d, doc_data_source_id d = i) (documents (db w)))
    ∧ chunks_total ov
      = length (filter (chunk_belongs_to (db w) i) (chunks (db w)))
    ∧ ∀ s, vector_index ov !! s
           = entry_of_count (documents_in_status (db w) i s).
Proof.
  intros Hex. apply get_row_is_Some in Hex as [ds Hg].
  rewrite serve_get_datasource_overview, Hg. eexists. split; [done|]. cbn.
  split; [done|]. split.
  - unfold select_count_chunks. by rewrite chunks_where_belongs.
  - intros s. unfold select_document_status_counts, documents_where.
    rewrite dict_of_group_by_count. f_equal. apply count_of_fmap_filter.
Qed.

(** C2. For an existing data source whose [build_kg_index] is false the
    overview's [kg_index] is the empty mapping, whatever chunks exist; when
    it is true, [kg_index] gives every chunk [index_status], over the
    chunks joined through the documents of the data source, its count. *)
Theorem overview_kg_index user w ds :
  primary_key_unique (db w) →
  ds ∈ data_sources (db w) →
  ∃ ov,
    result_of (serve (get_datasource_overview user (ds_id ds)) w) = Returned ov
    ∧ (ds_build_kg_index ds = false → kg_index ov = ∅)
    ∧ (ds_build_kg_index ds = true →
       ∀ s, kg_index ov !! s
            = entry_of_count (chunks_in_status (db w) (ds_id ds) s)).
Proof.
  intros Hpk Hin.
  rewrite serve_get_datasource_overview, (get_row_unique _ _ Hpk Hin).
  eexists. split; [done|]. cbn. unfold kg_index_of. split.
  - by intros ->.
  - intros -> s. unfold select_chunk_status_counts, chunks_in_status.
    rewrite chunks_where_belongs, dict_of_group_by_count. f_equal.
    apply count_of_fmap_filter.
Qed.

(** C7. For an existing data source with no documents the overview is
    exactly [{documents: {total: 0}, chunks: {total: 0}, kg_index: {},
    vector_index: {}}], whether or not [build_kg_index] is set. *)
Theorem overview_no_documents user w ds :
  ds ∈ data_sources (db w) →
  (∀ d, d ∈ documents (db w) → doc_data_source_id d ≠ ds_id ds) →
  result_of (serve (get_datasource_overview user (ds_id ds)) w)
  = Returned {| documents_total := 0;
                chunks_total := 0;
                kg_index := ∅;
                vector_index := ∅ |}.
Proof.
  intros Hin Hnone.
  assert (documents_where (ds_id ds) (db w) = []) as Hd.
  { by apply filter_none. }
  assert (chunks_where (ds_id ds) (db w) = []) as Hc.
  { apply filter_none. intros c _. unfold document_has.
    rewrite Exists_exists. intros (d & Hd' & _ & Hid). by eapply Hnone. }
  destruct (get_row (ds_id ds) (db w)) as [ds'|] eqn:Hg.
  - rewrite serve_get_datasource_overview, Hg. cbn. f_equal.
    unfold kg_index_of, select_count_documents, select_count_chunks,
      select_chunk_status_counts, select_document_status_counts.
    rewrite Hd, Hc. by destruct (ds_build_kg_index ds').
  - rewrite get_row_None in Hg. by destruct (Hg ds Hin).
Qed.

(** C9. In an overview response the counts of [vector_index] add up to
    [documents.total], and for a data source with [build_kg_index] set the
    counts of [kg_index] add up to [chunks.total]. *)
Theorem overview_sums user i w ov :
  result_of (serve (get_datasource_overview user i) w) = Returned ov →
  values_sum (vector_index ov) = documents_total ov
  ∧ (∀ ds, get_row i (db w) = Some ds → ds_build_kg_index ds = true →
           values_sum (kg_index ov) = chunks_total ov).
Proof.
  rewrite serve_get_datasource_overview.
  destruct (get_row i (db w)) as [ds|]; [|done].
  intros [= <-]. cbn. split.
  - unfold select_document_status_counts, select_count_documents.
    by rewrite values_sum_group_by_count, length_fmap.
  - intros ? [= <-] Hkg. unfold kg_index_of. rewrite Hkg.
    unfold select_chunk_status_counts, select_count_chunks.
    by rewrite values_sum_group_by_count, length_fmap.
Qed.

(** ** The lookup endpoints *)

(** C5. [get_datasource] and [get_datasource_overview] answer 404 exactly
    when no [DataSource] row has the id asked for; when the row exists,
    [get_datasource] returns that row. *)
Theorem not_found_iff_absent user i w :
  (response_status (result_of (serve (get_datasource user i) w))
     = HTTP_404_NOT_FOUND
   ↔ ¬ ∃ ds, ds ∈ data_sources (db w) ∧ ds_id ds = i)
  ∧ (response_status (result_of (serve (get_datasource_overview user i) w))
       = HTTP_404_NOT_FOUND
     ↔ ¬ ∃ ds, ds ∈ data_sources (db w) ∧ ds_id ds = i)
  ∧ (∀ ds, primary_key_unique (db w) → ds ∈ data_sources (db w) →
           ds_id ds = i →
           result_of (serve (get_datasource user i) w) = Returned ds).
Proof.
  rewrite serve_get_datasource, serve_get_datasource_overview.
  rewrite <- get_row_is_Some. split; [|split].
  - destruct (get_row i (db w)) as [ds|]; cbn.
    + split; [done|]. intros []. by eexists.
    + split; [|done]. by intros _ [? ?].
  - destruct (get_row i (db w)) as [ds|]; cbn.
    + split; [done|]. intros []. by eexists.
    + split; [|done]. by intros _ [? ?].
  - intros ds Hpk Hin <-. by rewrite (get_row_unique _ _ Hpk Hin).
Qed.

(** C10. The read endpoints write nothing: after [list_datasources],
    [get_datasource] or [get_datasource_overview] the world (the three
    tables and the job queue) is the one before, and so is the world in
    which each of their operations was issued, whether the handler returns
    or raises not-found. *)
Theorem read_endpoints_preserve_store user params i w :
  (world_of (serve (list_datasources user params) w) = w
   ∧ Forall (λ ew, ew.2 = w) (trace_of (serve (list_datasources user params) w)))
  ∧ (world_of (serve (get_datasource user i) w) = w
     ∧ Forall (λ ew, ew.2 = w) (trace_of (serve (get_datasource user i) w)))
  ∧ (world_of (serve (get_datasource_overview user i) w) = w
     ∧ Forall (λ ew, ew.2 = w)
         (trace_of (serve (get_datasource_overview user i) w))).
Proof.
  split; [|split]; apply read_only_serve.
  - apply read_only_list_datasources.
  - apply read_only_get_datasource.
  - apply read_only_get_datasource_overview.
Qed.

(** ** The create endpoint *)

Lemma next_id_fresh rows r : r ∈ rows → (ds_id r < next_id rows)%Z.
Proof.
  unfold next_id. induction rows as [|r' rows IH]; [by intros ?%elem_of_nil|].
  intros [->|Hin]%elem_of_cons; cbn; [lia|]. specialize (IH Hin). lia.
Qed.

Lemma get_row_next_id st : get_row (next_id (data_sources st)) st = None.
Proof.
  apply get_row_None. intros ds Hin%next_id_fresh. lia.
Qed.

Lemma get_row_with_row row w :
  ds_id row = next_id (data_sources (db w)) →
  get_row (ds_id row) (db (with_row row w)) = Some row.
Proof.
  intros Hid. unfold get_row, with_row. cbn.
  rewrite list_find_app_r.
  - cbn. by rewrite decide_True.
  - apply list_find_None, Forall_forall. intros ds Hin%next_id_fresh. lia.
Qed.

Lemma serve_create_datasource user request w :
  let row := created_row user request w in
  let w1 := with_row row w in
  serve (create_datasource user request) w
  = ([(EvAdd, w); (EvCommit, w); (EvRefresh, w1); (EvDelay (ds_id row), w1)],
     if broker_up w then Returned row else Raised OperationalError,
     if broker_up w then set_queue (queue w ++ [ds_id row]) w1 else w1).
Proof.
  intros row w1. pose proof (get_row_with_row row w eq_refl) as Hg.
  unfold serve, create_datasource, step_op. cbn in *.
  fold (created_row user request w). fold row. fold (with_row row w). fold w1.
  unfold get_row in Hg. cbn in Hg. rewrite Hg. cbn.
  by destruct (broker_up w).
Qed.

(** C3. A create request persists exactly one new [DataSource] row, with
    the caller's id as [user_id] and the fields of the request, dispatches
    exactly one import job, which carries the id of the new row, and
    returns the persisted row with its generated [id] and [created_at]. *)
Theorem create_datasource_persists_and_dispatches user request w :
  broker_up w = true →
  ∃ ds,
    result_of (serve (create_datasource user request) w) = Returned ds
    ∧ data_sources (db (world_of (serve (create_datasource user request) w)))
      = data_sources (db w) ++ [ds]
    ∧ documents (db (world_of (serve (create_datasource user request) w)))
      = documents (db w)
    ∧ chunks (db (world_of (serve (create_datasource user request) w)))
      = chunks (db w)
    ∧ (∀ r, r ∈ data_sources (db w) → ds_id r ≠ ds_id ds)
    ∧ get_row (ds_id ds)
        (db (world_of (serve (create_datasource user request) w))) = Some ds
    ∧ ds_user_id ds = user_id user
    ∧ ds_name ds = name request
    ∧ ds_description ds = description request
    ∧ ds_data_source_type ds = data_source_type request
    ∧ ds_config ds = config request
    ∧ ds_build_kg_index ds = build_kg_index request
    ∧ ds_created_at ds = clock w
    ∧ dispatched (trace_of (serve (create_datasource user request) w))
      = [ds_id ds]
    ∧ queue (world_of (serve (create_datasource user request) w))
      = queue w ++ [ds_id ds].
Proof.
  intros Hup. rewrite serve_create_datasource, Hup. cbn.
  exists (created_row user request w). repeat split.
  - intros r Hin%next_id_fresh. cbn. lia.
  - by apply get_row_with_row.
Qed.

(** C4. In every run of [create_datasource] the commit is issued before
    the dispatch: the dispatch is the last operation, it is issued in a
    world whose committed table has the row of the dispatched id, and the
    commit that stored the row is issued earlier, in the world the request
    started in, where no row has that id. *)
Theorem create_datasource_commits_before_dispatch user request w :
  ∃ ds w1,
    trace_of (serve (create_datasource user request) w)
    = [(EvAdd, w); (EvCommit, w); (EvRefresh, w1); (EvDelay (ds_id ds), w1)]
    ∧ get_row (ds_id ds) (db w) = None
    ∧ get_row (ds_id ds) (db w1) = Some ds
    ∧ queue w1 = queue w.
Proof.
  rewrite serve_create_datasource. cbn.
  exists (created_row user request w), (with_row (created_row user request w) w).
  split; [done|]. split; [apply get_row_next_id|]. split; [|done].
  by apply get_row_with_row.
Qed.

(** C8. When the dispatch fails the new row stays stored and the failure
    reaches the caller as a server error: the request fails with the
    dispatcher's exception, status 500, no job is queued, and the table
    has the new row. *)
Theorem create_datasource_dispatch_failure user request w :
  broker_up w = false →
  ∃ ds,
    result_of (serve (create_datasource user request) w)
    = Raised OperationalError
    ∧ response_status (result_of (serve (create_datasource user request) w))
      = HTTP_500_INTERNAL_SERVER_ERROR
    ∧ data_sources (db (world_of (serve (create_datasource user request) w)))
      = data_sources (db w) ++ [ds]
    ∧ get_row (ds_id ds)
        (db (world_of (serve (create_datasource user request) w))) = Some ds
    ∧ get_row (ds_id ds) (db w) = None
    ∧ ds_name ds = name request
    ∧ ds_user_id ds = user_id user
    ∧ queue (world_of (serve (create_datasource user request) w)) = queue w.
Proof.
  intros Hdown. rewrite serve_create_datasource, Hdown. cbn.
  exists (created_row user request w). do 3 (split; [done|]).
  split; [by apply get_row_with_row|].
  split; [apply get_row_next_id|done].
Qed.

(** ** The list endpoint *)

#[global] Instance created_at_desc_trans : Transitive created_at_desc.
Proof. intros a b c. unfold created_at_desc. lia. Qed.

#[global] Instance created_at_desc_total : Total created_at_desc.
Proof. intros a b. unfold created_at_desc. lia. Qed.

Lemma page_count_covers total n : 1 ≤ n → total ≤ page_count total n * n.
Proof.
  destruct n as [|n]; [lia|]. intros _. unfold page_count.
  pose proof (Nat.mul_succ_div_gt (total + S n - 1) (S n)) as Hdiv.
  set (q := (total + S n - 1) `div` S n) in *. lia.
Qed.

(** The pages 1 to [k] of size [n] of one ordered result, one after the
    other, are its first [k * n] rows. *)
Lemma concat_limit_offset {A} (l : list A) n k :
  concat ((λ p, limit_offset (raw_params {| page := p; size := n |}) l) <$> seq 1 k)
  = take (k * n) l.
Proof.
  induction k as [|k IH]; [done|].
  rewrite seq_S, fmap_app, concat_app, IH. cbn [fmap list_fmap concat].
  unfold limit_offset, raw_params. cbn [page size fst snd]. rewrite app_nil_r.
  replace (n * (1 + k - 1)) with (k * n) by lia.
  rewrite take_take_drop. f_equal. lia.
Qed.

(** Rows with pairwise distinct [created_at] have one newest-first order. *)
Lemma created_at_order_unique (rows l1 l2 : list DataSource) :
  NoDup (ds_created_at <$> rows) →
  l1 ≡ₚ rows → StronglySorted created_at_desc l1 →
  l2 ≡ₚ rows → StronglySorted created_at_desc l2 →
  l1 = l2.
Proof.
  intros Hnd Hp1 Hs1 Hp2 Hs2.
  apply (StronglySorted_unique_strong created_at_desc); [|done|done|].
  - intros x1 x2 Hx1 Hx2 H12 H21. unfold created_at_desc in *.
    rewrite Hp1 in Hx1. rewrite Hp2 in Hx2.
    apply list_elem_of_lookup in Hx1 as [n1 Hn1], Hx2 as [n2 Hn2].
    assert (n1 = n2) as ->; [|congruence].
    eapply NoDup_lookup; [exact Hnd| |]; rewrite list_lookup_fmap.
    + by rewrite Hn1.
    + rewrite Hn2. cbn. f_equal. lia.
  - by rewrite Hp1, Hp2.
Qed.

Lemma serve_list_datasources user params w :
  serve (list_datasources user params) w
  = ([(EvExec, w); (EvExec, w)],
     Returned
       {| items :=
            limit_offset (raw_params params)
              (tie_order (Some (raw_params params)) (data_sources (db w)));
          total := length (tie_order None (data_sources (db w)));
          page_number := page params;
          page_size := size params;
          pages :=
            page_count (length (tie_order None (data_sources (db w))))
              (size params) |},
     w).
Proof. reflexivity. Qed.

Lemma page_items_limit_offset user w n p :
  page_items user w n p
  = limit_offset (raw_params {| page := p; size := n |})
      (tie_order (Some (raw_params {| page := p; size := n |}))
         (data_sources (db w))).
Proof. reflexivity. Qed.

(** ** Further properties of the handlers *)

Lemma create_datasource_returned user request w ds :
  result_of (serve (create_datasource user request) w) = Returned ds →
  ds = created_row user request w ∧ broker_up w = true.
Proof.
  rewrite serve_create_datasource. cbn.
  destruct (broker_up w); [|done]. by intros [= <-].
Qed.

Lemma db_after_create_datasource user request w :
  db (world_of (serve (create_datasource user request) w))
  = db (with_row (created_row user request w) w).
Proof. rewrite serve_create_datasource. cbn. by destruct (broker_up w). Qed.

Lemma get_row_with_row_old row w i :
  is_Some (get_row i (db w)) →
  get_row i (db (with_row row w)) = get_row i (db w).
Proof.
  unfold get_row, with_row. cbn. intros [ds Hg].
  apply fmap_Some in Hg as ([n r] & Hf & ->).
  by rewrite (list_find_app_l _ _ _ _ _ Hf), Hf.
Qed.

Lemma result_of_get_datasource user i w :
  result_of (serve (get_datasource user i) w)
  = match get_row i (db w) with
    | Some ds => Returned ds
    | None => Raised (HTTPException HTTP_404_NOT_FOUND "Data source not found")
    end.
Proof. by rewrite serve_get_datasource. Qed.

Lemma result_of_get_datasource_overview user i w :
  result_of (serve (get_datasource_overview user i) w)
  = match get_row i (db w) with
    | Some ds =>
        Returned
          {| documents_total := select_count_documents i (db w);
             chunks_total := select_count_chunks i (db w);
             kg_index := kg_index_of ds i (db w);
             vector_index := dict_of_rows (select_document_status_counts i (db w)) |}
    | None => Raised (HTTPException HTTP_404_NOT_FOUND "Data source not found")
    end.
Proof.
  rewrite serve_get_datasource_overview. by destruct (get_row i (db w)).
Qed.

(** X1. What [create_datasource] returns is what [get_datasource] then
    returns for its id, for any caller; before the create the same id was
    answered with 404. *)
Theorem create_then_get_datasource user user' request w ds :
  result_of (serve (create_datasource user request) w) = Returned ds →
  result_of (serve (get_datasource user' (ds_id ds))
               (world_of (serve (create_datasource user request) w)))
  = Returned ds
  ∧ response_status (result_of (serve (get_datasource user' (ds_id ds)) w))
    = HTTP_404_NOT_FOUND.
Proof.
  intros [-> _]%create_datasource_returned.
  rewrite !result_of_get_datasource, db_after_create_datasource.
  rewrite get_row_with_row by done.
  change (ds_id (created_row user request w)) with (next_id (data_sources (db w))).
  by rewrite get_row_next_id.
Qed.

(** X2. A create, whether its dispatch succeeds or fails, leaves the
    answers for every data source that was already stored as they were:
    [get_datasource] and [get_datasource_overview] return for its id what
    they returned before. *)
Theorem create_preserves_existing_answers user user' request w i :
  (∃ ds, ds ∈ data_sources (db w) ∧ ds_id ds = i) →
  result_of (serve (get_datasource user' i)
               (world_of (serve (create_datasource user request) w)))
  = result_of (serve (get_datasource user' i) w)
  ∧ result_of (serve (get_datasource_overview user' i)
                 (world_of (serve (create_datasource user request) w)))
    = result_of (serve (get_datasource_overview user' i) w).
Proof.
  intros Hex%get_row_is_Some.
  rewrite !result_of_get_datasource, !result_of_get_datasource_overview.
  rewrite db_after_create_datasource, get_row_with_row_old by done.
  done.
Qed.

(** X3. A create keeps the primary key constraint: when no two stored data
    sources share an [id] before, none do after, whether the dispatch
    succeeds or fails. *)
Theorem create_preserves_primary_key user request w :
  primary_key_unique (db w) →
  primary_key_unique (db (world_of (serve (create_datasource user request) w))).
Proof.
  unfold primary_key_unique. intros Hnd.
  rewrite db_after_create_datasource. cbn. rewrite fmap_app.
  apply NoDup_app. split; [done|]. split; [|apply NoDup_singleton].
  intros x Hx ->%list_elem_of_singleton.
  apply list_elem_of_fmap in Hx as (r & Hid & Hin%next_id_fresh).
  cbn in Hid. lia.
Qed.

(** X4. When every document refers to a stored data source, the overview
    of a data source that has just been created is all zero: no documents,
    no chunks, and two empty status mappings. *)
Theorem create_then_overview_empty user user' request w ds :
  documents_reference_data_sources (db w) →
  result_of (serve (create_datasource user request) w) = Returned ds →
  result_of (serve (get_datasource_overview user' (ds_id ds))
               (world_of (serve (create_datasource user request) w)))
  = Returned {| documents_total := 0;
                chunks_total := 0;
                kg_index := ∅;
                vector_index := ∅ |}.
Proof.
  intros Hfk [-> _]%create_datasource_returned.
  rewrite result_of_get_datasource_overview, db_after_create_datasource.
  rewrite get_row_with_row by done.
  assert (∀ d, d ∈ documents (db w) →
               doc_data_source_id d ≠ next_id (data_sources (db w))) as Hnone.
  { intros d (r & Hin%next_id_fresh & Hid)%Hfk. lia. }
  assert (documents_where (ds_id (created_row user request w))
            (db (with_row (created_row user request w) w)) = []) as Hd.
  { by apply filter_none. }
  assert (chunks_where (ds_id (created_row user request w))
            (db (with_row (created_row user request w) w)) = []) as Hc.
  { apply filter_none. intros c _. unfold document_has.
    rewrite Exists_exists. intros (d & Hd' & _ & Hid). by eapply Hnone. }
  f_equal. unfold kg_index_of, select_count_documents, select_count_chunks,
    select_chunk_status_counts, select_document_status_counts.
  rewrite Hd, Hc. by destruct (ds_build_kg_index _).
Qed.


(** X6. The overview of a data source does not count the documents of
    another one: a document stored for a different data source changes
    nothing in the overview. *)
Theorem overview_ignores_other_documents user i d w :
  doc_data_source_id d ≠ i →
  result_of (serve (get_datasource_overview user i) (with_document d w))
  = result_of (serve (get_datasource_overview user i) w).
Proof.
  intros Hne. rewrite !result_of_get_datasource_overview.
  assert (documents_where i (db (with_document d w)) = documents_where i (db w))
    as Hd.
  { unfold documents_where, with_document. cbn.
    rewrite filter_app, filter_cons_False, filter_nil, app_nil_r by done. done. }
  assert (chunks_where i (db (with_document d w)) = chunks_where i (db w)) as Hc.
  { unfold chunks_where, with_document. cbn. apply list_filter_iff. intros c.
    unfold document_has. cbn. rewrite Exists_app, Exists_cons, Exists_nil.
    split; [intros [?|[[_ ?]|[]]]; [done|congruence] | by left]. }
  assert (get_row i (db (with_document d w)) = get_row i (db w)) as -> by done.
  destruct (get_row i (db w)) as [ds|]; [|done]. f_equal.
  unfold kg_index_of, select_count_documents, select_count_chunks,
    select_chunk_status_counts, select_document_status_counts.
  by rewrite Hd, Hc.
Qed.

Lemma count_of_le {K} `{EqDecision K} (k : K) ks : count_of k ks ≤ length ks.
Proof. unfold count_of. apply length_filter. Qed.

(** X7. Every count in the status mappings of an overview is at least 1
    and at most the total beside it: an entry of [vector_index] lies between
    1 and [documents.total], an entry of [kg_index] between 1 and
    [chunks.total]. *)
Theorem overview_entries_bounded user i w ov :
  result_of (serve (get_datasource_overview user i) w) = Returned ov →
  (∀ s c, vector_index ov !! s = Some c → 1 ≤ c ≤ documents_total ov)
  ∧ (∀ s c, kg_index ov !! s = Some c → 1 ≤ c ≤ chunks_total ov).
Proof.
  rewrite result_of_get_datasource_overview.
  destruct (get_row i (db w)) as [ds|]; [|done]. intros [= <-]. cbn. split.
  - intros s c. unfold select_document_status_counts, select_count_documents.
    rewrite dict_of_group_by_count.
    pose proof (count_of_le s (doc_index_status <$> documents_where i (db w))) as Hle.
    rewrite length_fmap in Hle.
    destruct (count_of s _) eqn:Hc; [done|]. intros [= <-]. lia.
  - intros s c. unfold kg_index_of.
    destruct (ds_build_kg_index ds); [|by rewrite lookup_empty].
    unfold select_chunk_status_counts, select_count_chunks.
    rewrite dict_of_group_by_count.
    pose proof (count_of_le s (chunk_index_status <$> chunks_where i (db w))) as Hle.
    rewrite length_fmap in Hle.
    destruct (count_of s _) eqn:Hc; [done|]. intros [= <-]. lia.
Qed.

Lemma StronglySorted_sublist {A} (R : relation A) (l1 l2 : list A) :
  l1 `sublist_of` l2 → StronglySorted R l2 → StronglySorted R l1.
Proof.
  induction 1 as [|x l1 l2 Hsub IH|x l1 l2 Hsub IH]; intros Hs; [done| |].
  - apply StronglySorted_inv in Hs as [Hs Hall]. constructor; [auto|].
    rewrite Forall_forall in *. intros y Hy. apply Hall.
    by eapply elem_of_sublist.
  - apply StronglySorted_inv in Hs as [Hs _]. auto.
Qed.

Lemma page_items_sublist user w n p :
  page_items user w n p
  `sublist_of` tie_order (Some (raw_params {| page := p; size := n |}))
                 (data_sources (db w)).
Proof.
  rewrite page_items_limit_offset. unfold limit_offset.
  etrans; [apply sublist_take | apply sublist_drop].
Qed.

(** X8. One page, for any page number and size from 1 on and any database
    that meets the ordering: it has at most [size] items, every item is a
    stored data source, the items are in non-increasing order of
    [created_at], and under the primary key constraint no data source is on
    the page twice. *)
Theorem list_datasources_page_sound user w n p :
  orders_by_created_at_desc →
  1 ≤ p →
  1 ≤ n →
  length (page_items user w n p) ≤ n
  ∧ (∀ x, x ∈ page_items user w n p → x ∈ data_sources (db w))
  ∧ StronglySorted created_at_desc (page_items user w n p)
  ∧ (primary_key_unique (db w) → NoDup (ds_id <$> page_items user w n p)).
Proof.
  intros Horder _ _.
  destruct (Horder (Some (raw_params {| page := p; size := n |}))
              (data_sources (db w))) as [Hperm Hsorted].
  pose proof (page_items_sublist user w n p) as Hsub.
  split; [|split; [|split]].
  - rewrite page_items_limit_offset. unfold limit_offset, raw_params. cbn.
    rewrite length_take. lia.
  - intros x Hx. rewrite <- Hperm. by eapply elem_of_sublist.
  - by eapply StronglySorted_sublist.
  - unfold primary_key_unique. intros Hnd.
    eapply sublist_NoDup; [|exact (fmap_sublist ds_id _ _ Hsub)].
    by rewrite Hperm.
Qed.

(** X9. A page past the last one is empty: for a size of at least 1, a
    page number above [pages] gives no items. *)
Theorem list_datasources_page_beyond_last user w n p :
  orders_by_created_at_desc →
  1 ≤ n →
  page_count (length (data_sources (db w))) n < p →
  page_items user w n p = [].
Proof.
  intros Horder Hn Hp. rewrite page_items_limit_offset.
  unfold limit_offset, raw_params. cbn.
  destruct (Horder (Some (n, n * (p - 1))) (data_sources (db w))) as [Hperm _].
  rewrite drop_ge; [by destruct n|].
  rewrite (Permutation_length Hperm).
  pose proof (page_count_covers (length (data_sources (db w))) n Hn). nia.
Qed.

Lemma created_at_sorted (l : list DataSource) :
  StronglySorted created_at_desc l
  ↔ StronglySorted newest_first (ds_created_at <$> l).
Proof.
  split; [by apply StronglySorted_fmap|].
  induction l as [|x l IH]; [constructor|]. rewrite fmap_cons.
  intros [Hs Hall]%StronglySorted_inv. constructor; [auto|].
  rewrite Forall_fmap in Hall. exact Hall.
Qed.

(** The [created_at] values of a newest-first order of the table do not
    depend on how the database orders ties. *)
Lemma created_at_of_tie_order lo rows :
  orders_by_created_at_desc →
  ds_created_at <$> tie_order lo rows = ds_created_at <$> tie_order None rows.
Proof.
  intros Horder.
  destruct (Horder lo rows) as [Hp1 Hs1], (Horder None rows) as [Hp2 Hs2].
  apply (StronglySorted_unique_strong newest_first).
  - unfold newest_first. intros; lia.
  - by apply created_at_sorted.
  - by apply created_at_sorted.
  - by rewrite Hp1, Hp2.
Qed.

Lemma created_at_of_pages user w n k :
  orders_by_created_at_desc →
  ds_created_at <$> concat (page_items user w n <$> seq 1 k)
  = take (k * n) (ds_created_at <$> tie_order None (data_sources (db w))).
Proof.
  intros Horder. induction k as [|k IH]; [done|].
  rewrite seq_S, fmap_app, concat_app, fmap_app, IH.
  cbn [fmap list_fmap concat]. rewrite app_nil_r, page_items_limit_offset.
  unfold limit_offset, raw_params. cbn [page size fst snd].
  rewrite fmap_take, fmap_drop, (created_at_of_tie_order (Some _)) by done.
  replace (n * (1 + k - 1)) with (k * n) by lia.
  rewrite take_take_drop. f_equal. lia.
Qed.

#[global] Instance newest_first_trans : Transitive newest_first.
Proof. intros a b c. unfold newest_first. lia. Qed.

#[global] Instance newest_first_total : Total newest_first.
Proof. intros a b. unfold newest_first. lia. Qed.

(** Whatever the order of ties, the [created_at] values of the rows the
    database returns are the sorted [created_at] values of the table. *)
Lemma created_at_of_tie_order_sorted lo st :
  orders_by_created_at_desc →
  ds_created_at <$> tie_order lo (data_sources st) = created_at_newest_first st.
Proof.
  intros Horder. destruct (Horder lo (data_sources st)) as [Hperm Hsorted].
  unfold created_at_newest_first.
  apply (StronglySorted_unique_strong newest_first).
  - unfold newest_first. intros; lia.
  - by apply created_at_sorted.
  - apply StronglySorted_merge_sort; apply _.
  - by rewrite Hperm, merge_sort_Permutation.
Qed.

Lemma distinct_created_at_ties_alike rows :
  orders_by_created_at_desc →
  NoDup (ds_created_at <$> rows) → ties_ordered_alike rows.
Proof.
  intros Horder Hnd lo.
  destruct (Horder lo rows) as [Hp1 Hs1], (Horder None rows) as [Hp2 Hs2].
  by apply (created_at_order_unique rows).
Qed.

Lemma all_pages_ties_alike user w n :
  orders_by_created_at_desc →
  1 ≤ n →
  ties_ordered_alike (data_sources (db w)) →
  all_pages user w n = tie_order None (data_sources (db w)).
Proof.
  intros Horder Hn Halike. unfold all_pages.
  destruct (Horder None (data_sources (db w))) as [Hperm _].
  rewrite (list_fmap_ext _
             (λ p, limit_offset (raw_params {| page := p; size := n |})
                     (tie_order None (data_sources (db w))))).
  - rewrite concat_limit_offset. apply take_ge.
    rewrite (Permutation_length Hperm). by apply page_count_covers.
  - intros _ p _. by rewrite page_items_limit_offset, Halike.
Qed.

(** C6, as amended.  On a database that returns the rows of
    [ORDER BY created_at DESC] newest first, for a page number and a size
    of at least 1, [list_datasources] returns one page of the data sources
    ordered by [created_at], newest first: the page has at most [size]
    items, in non-increasing order of [created_at], holds no stored row more
    often than the table has it, and its items carry the [created_at]
    values that stand at the offsets [size * (page - 1)] to [size * page]
    of the table's [created_at] values sorted newest first.  The pages 1 to
    [pages], one after the other, are in non-increasing order of
    [created_at].  When no two data sources share a [created_at], or the
    database orders rows of equal [created_at] the same way in every
    statement, these pages hold the rows of the table, each as often as the
    table has it. *)
Theorem list_datasources_pages user w n :
  orders_by_created_at_desc →
  1 ≤ n →
  let count := length (data_sources (db w)) in
  (∀ p, 1 ≤ p →
     ∃ pg,
       result_of (serve (list_datasources user {| page := p; size := n |}) w)
       = Returned pg
       ∧ total pg = count
       ∧ page_number pg = p
       ∧ page_size pg = n
       ∧ pages pg = page_count count n
       ∧ length (items pg) ≤ n
       ∧ items pg ⊆+ data_sources (db w)
       ∧ StronglySorted created_at_desc (items pg)
       ∧ ds_created_at <$> items pg
         = take n (drop (n * (p - 1)) (created_at_newest_first (db w))))
  ∧ StronglySorted created_at_desc (all_pages user w n)
  ∧ (NoDup (ds_created_at <$> data_sources (db w))
     ∨ ties_ordered_alike (data_sources (db w)) →
     all_pages user w n ≡ₚ data_sources (db w)).
Proof.
  intros Horder Hn count. split; [|split].
  - intros p _.
    destruct (Horder (Some (raw_params {| page := p; size := n |}))
                (data_sources (db w))) as [Hperm Hsorted].
    destruct (Horder None (data_sources (db w))) as [Hnone _].
    pose proof (page_items_sublist user w n p) as Hsub.
    exists {| items := page_items user w n p;
              total := count;
              page_number := p;
              page_size := n;
              pages := page_count count n |}.
    split.
    { rewrite serve_list_datasources. unfold count.
      rewrite <- (Permutation_length Hnone). reflexivity. }
    cbn [items total page_number page_size pages].
    do 4 (split; [done|]). split; [|split; [|split]].
    + rewrite page_items_limit_offset. unfold limit_offset, raw_params. cbn.
      rewrite length_take. lia.
    + rewrite <- Hperm. by apply sublist_submseteq.
    + by eapply StronglySorted_sublist.
    + rewrite page_items_limit_offset. unfold limit_offset, raw_params. cbn.
      by rewrite fmap_take, fmap_drop, created_at_of_tie_order_sorted.
  - apply created_at_sorted. unfold all_pages.
    rewrite created_at_of_pages by done.
    destruct (Horder None (data_sources (db w))) as [Hperm Hsorted].
    rewrite take_ge.
    + by apply created_at_sorted.
    + rewrite length_fmap, (Permutation_length Hperm).
      by apply page_count_covers.
  - intros Hties.
    assert (ties_ordered_alike (data_sources (db w))) as Halike.
    { destruct Hties as [Hnd|Halike]; [|done].
      by apply distinct_created_at_ties_alike. }
    rewrite all_pages_ties_alike by done.
    by destruct (Horder None (data_sources (db w))) as [Hperm _].
Qed.

(** X10. Also with data sources that share a [created_at], the pages 1 to
    [pages] of a size of at least 1, one after the other, are in
    non-increasing order of [created_at], have as many items as the table
    has rows, and carry the [created_at] values of the table, each as often
    as the table has it. *)
Theorem list_datasources_pages_created_at user w n :
  orders_by_created_at_desc →
  1 ≤ n →
  StronglySorted created_at_desc (all_pages user w n)
  ∧ length (all_pages user w n) = length (data_sources (db w))
  ∧ ds_created_at <$> all_pages user w n
    ≡ₚ ds_created_at <$> data_sources (db w).
Proof.
  intros Horder Hn.
  destruct (Horder None (data_sources (db w))) as [Hperm Hsorted].
  assert (ds_created_at <$> all_pages user w n
          = ds_created_at <$> tie_order None (data_sources (db w))) as Hkeys.
  { unfold all_pages. rewrite created_at_of_pages by done. apply take_ge.
    rewrite length_fmap, (Permutation_length Hperm).
    by apply page_count_covers. }
  split; [|split].
  - apply created_at_sorted. rewrite Hkeys. by apply created_at_sorted.
  - rewrite <- (length_fmap ds_created_at (all_pages user w n)), Hkeys.
    by rewrite length_fmap, (Permutation_length Hperm).
  - by rewrite Hkeys, Hperm.
Qed.

Lemma newest_is_first (l rows : list DataSource) x :
  l ≡ₚ rows ++ [x] →
  StronglySorted created_at_desc l →
  (∀ r, r ∈ rows → (ds_created_at r < ds_created_at x)%Z) →
  ∃ rest, l = x :: rest.
Proof.
  intros Hperm Hs Hnew. destruct l as [|y l].
  { apply Permutation_nil in Hperm. by destruct rows. }
  exists l. f_equal. apply StronglySorted_inv in Hs as [_ Hall].
  rewrite Forall_forall in Hall.
  assert (y ∈ rows ++ [x]) as Hy by (rewrite <- Hperm; left).
  apply elem_of_app in Hy as [Hy|Hy%list_elem_of_singleton]; [|done].
  assert (x ∈ y :: l) as Hx.
  { rewrite Hperm. apply elem_of_app. right. apply list_elem_of_here. }
  apply elem_of_cons in Hx as [->|Hx]; [done|].
  specialize (Hall x Hx). specialize (Hnew y Hy).
  unfold created_at_desc in Hall. lia.
Qed.

(** X11. A data source created when the database clock is past every
    stored [created_at] heads the listing: after the create, page 1 of any
    size of at least 1 starts with the new data source, and [total] is one
    more than the number of data sources stored before. *)
Theorem create_then_listed_first user user' request w ds n :
  orders_by_created_at_desc →
  (∀ r, r ∈ data_sources (db w) → (ds_created_at r < clock w)%Z) →
  1 ≤ n →
  result_of (serve (create_datasource user request) w) = Returned ds →
  ∃ pg rest,
    result_of (serve (list_datasources user' {| page := 1; size := n |})
                 (world_of (serve (create_datasource user request) w)))
    = Returned pg
    ∧ items pg = ds :: rest
    ∧ total pg = S (length (data_sources (db w))).
Proof.
  intros Horder Hclock Hn [-> _]%create_datasource_returned.
  rewrite serve_list_datasources, db_after_create_datasource. cbn.
  destruct (Horder (Some (n, n * 0)) (data_sources (db w)
                                        ++ [created_row user request w]))
    as [Hperm Hsorted].
  destruct (newest_is_first _ _ _ Hperm Hsorted Hclock) as [rest Hrest].
  eexists _, (take (n - 1) rest). split; [done|]. cbn. split.
  - unfold limit_offset. cbn.
    change (raw_params {| page := 1; size := n |}) with (n, n * 0).
    rewrite Hrest, Nat.mul_0_r. cbn.
    destruct n as [|n]; [lia|]. cbn. by rewrite Nat.sub_0_r.
  - destruct (Horder None (data_sources (db w) ++ [created_row user request w]))
      as [Hnone _].
    rewrite (Permutation_length Hnone), length_app. cbn. lia.
Qed.

End admin.


(** * A worked instance

    The enumerations instantiated with the values the specification names,
    and a small database: data source 1 builds a knowledge-graph index and
    has three documents, two completed and one failed; data source 2 does not
    and has one pending document; data source 3 has no documents. *)

Inductive ExampleSourceType : Type := file_upload | web_crawl | cloud_storage.

Inductive ExampleStatus : Type := pending | processing | completed | failed.

#[global] Instance ExampleStatus_eq_dec : EqDecision ExampleStatus.
Proof. solve_decision. Defined.

Definition example_rank (s : ExampleStatus) : Z :=
  match s with
  | pending => 0
  | processing => 1
  | completed => 2
  | failed => 3
  end%Z.

#[global] Instance ExampleStatus_countable : Countable ExampleStatus.
Proof.
  refine (inj_countable' (λ s, Z.to_nat (example_rank s))
            (λ n, match n with
                  | 0 => pending
                  | 1 => processing
                  | 2 => completed
                  | _ => failed
                  end) _).
  by intros [].
Defined.

Definition example_user : User := {| user_id := 7%Z |}.

Definition example_source (i : Z) (kg : bool) (t : Z)
  : @DataSource ExampleSourceType Z :=
  {| ds_id := i;
     ds_name := "docs";
     ds_description := "product documentation";
     ds_data_source_type := web_crawl;
     ds_config := ConfigList [JString "https://example.org/sitemap.xml"];
     ds_build_kg_index := kg;
     ds_user_id := 7%Z;
     ds_created_at := t |}.

Definition example_store : Store :=
  {| data_sources :=
       [example_source 1 true 100; example_source 2 false 300;
        example_source 3 true 200];
     documents :=
       [mkDocument 10 1 completed; mkDocument 11 1 completed;
        mkDocument 12 1 failed; mkDocument 13 2 pending];
     chunks :=
       [mkChunk 100 10 completed; mkChunk 101 10 failed;
        mkChunk 102 12 completed; mkChunk 103 13 pending;
        mkChunk 104 99 pending] |}.

Definition example_world (up : bool) : World :=
  {| db := example_store; queue := []; broker_up := up; clock := 400 |}.

(** Two data sources created in the same second. *)
Definition example_tied_world : World :=
  {| db := {| data_sources := [example_source 1 true 100; example_source 2 false 100];
              documents := @nil (@Document ExampleStatus);
              chunks := @nil (@Chunk ExampleStatus) |};
     queue := [];
     broker_up := true;
     clock := 400 |}.

(** A database that orders ties the same way in every statement. *)
Definition example_tie_order
  : option (nat * nat) → list (@DataSource ExampleSourceType Z)
    → list (@DataSource ExampleSourceType Z) :=
  λ _ rows, merge_sort created_at_desc rows.

(** A database whose order of ties depends on the statement: it reads the
    table backwards when the offset is odd. *)
Definition example_flaky_order
  : option (nat * nat) → list (@DataSource ExampleSourceType Z)
    → list (@DataSource ExampleSourceType Z) :=
  λ lo rows,
    match lo with
    | Some (_, o) =>
        if Nat.even o
        then merge_sort created_at_desc rows
        else merge_sort created_at_desc (reverse rows)
    | None => merge_sort created_at_desc rows
    end.

Definition example_request : DataSourceCreate :=
  {| name := "handbook";
     description := "staff handbook";
     data_source_type := file_upload;
     config := ConfigDict [("path", JString "handbook.pdf")];
     build_kg_index := false |}.

Definition example_overview :=
  get_datasource_overview (DataSourceType := ExampleSourceType)
    example_rank example_rank example_user.

Example example_overview_1 :
  result_of (serve (example_overview 1%Z) (example_world true))
  = Returned {| documents_total := 3;
                chunks_total := 3;
                kg_index := {[ completed := 2; failed := 1 ]};
                vector_index := {[ completed := 2; failed := 1 ]} |}.
Proof. vm_compute. reflexivity. Qed.

Example example_overview_2 :
  result_of (serve (example_overview 2%Z) (example_world true))
  = Returned {| documents_total := 1;
                chunks_total := 1;
                kg_index := ∅;
                vector_index := {[ pending := 1 ]} |}.
Proof. vm_compute. reflexivity. Qed.

Example example_create :
  serve (create_datasource example_user example_request) (example_world true)
  = (let row :=
       {| ds_id := 4;
          ds_name := "handbook";
          ds_description := "staff handbook";
          ds_data_source_type := file_upload;
          ds_config := ConfigDict [("path", JString "handbook.pdf")];
          ds_build_kg_index := false;
          ds_user_id := 7%Z;
          ds_created_at := 400 |} in
     let w1 := with_row row (example_world true) in
     ([(EvAdd, example_world true); (EvCommit, example_world true);
       (EvRefresh, w1); (EvDelay 4, w1)],
      Returned row,
      set_queue [4%Z] w1)).
Proof. reflexivity. Qed.

Example example_list_page_2 :
  page_items example_tie_order example_user (example_world true) 2 2
  = [example_source 1 true 100].
Proof. reflexivity. Qed.

Example example_flaky_pages :
  page_items example_flaky_order example_user example_tied_world 1 1
  = [example_source 1 true 100]
  ∧ page_items example_flaky_order example_user example_tied_world 1 2
    = [example_source 1 true 100].
Proof. split; reflexivity. Qed.

Lemma example_tie_order_contract : orders_by_created_at_desc example_tie_order.
Proof.
  intros lo rows. unfold example_tie_order.
  split; [apply merge_sort_Permutation | apply StronglySorted_merge_sort; apply _].
Defined.

Lemma example_flaky_order_contract : orders_by_created_at_desc example_flaky_order.
Proof.
  intros [[l o]|] rows; unfold example_flaky_order; [destruct (Nat.even o)|].
  - split; [apply merge_sort_Permutation | apply StronglySorted_merge_sort; apply _].
  - split; [|apply StronglySorted_merge_sort; apply _].
    by rewrite merge_sort_Permutation, reverse_Permutation.
  - split; [apply merge_sort_Permutation | apply StronglySorted_merge_sort; apply _].
Qed.

(** C6 as stated fails: with two data sources of the same [created_at] and a
    database that meets [ORDER BY created_at DESC] but orders the tie by the
    statement, the pages 1 and 2 of size 1 both hold data source 1, and data
    source 2 is on no page. *)
Lemma list_datasources_pages_counterexample :
  orders_by_created_at_desc example_flaky_order
  ∧ concat (page_items example_flaky_order example_user example_tied_world 1
              <$> seq 1 (page_count 2 1))
    = [example_source 1 true 100; example_source 1 true 100]
  ∧ ¬ (concat (page_items example_flaky_order example_user example_tied_world 1
                 <$> seq 1 (page_count 2 1))
       ≡ₚ data_sources (db example_tied_world)).
Proof.
  split; [apply example_flaky_order_contract|].
  assert (concat (page_items example_flaky_order example_user example_tied_world 1
                    <$> seq 1 (page_count 2 1))
          = [example_source 1 true 100; example_source 1 true 100]) as ->
    by reflexivity.
  split; [done|]. intros Hperm.
  assert (example_source 2 false 100
          ∈ [example_source 1 true 100; example_source 1 true 100]) as Hin.
  { rewrite Hperm. cbn. apply list_elem_of_further, list_elem_of_here. }
  repeat (apply elem_of_cons in Hin as [Heq|Hin]; [discriminate Heq|]).
  by apply elem_of_nil in Hin.
Qed.

Lemma example_primary_key : primary_key_unique (db (example_world true)).
Proof. unfold primary_key_unique. cbn. apply (bool_decide_unpack _). reflexivity. Defined.

Lemma example_source_1_stored :
  example_source 1 true 100 ∈ data_sources (db (example_world true)).
Proof. cbn. apply list_elem_of_here. Defined.

Lemma example_source_2_stored :
  example_source 2 false 300 ∈ data_sources (db (example_world true)).
Proof. cbn. apply list_elem_of_further, list_elem_of_here. Defined.

Lemma example_source_3_stored :
  example_source 3 true 200 ∈ data_sources (db (example_world true)).
Proof. cbn. do 2 apply list_elem_of_further. apply list_elem_of_here. Defined.

Lemma overview_totals_and_vector_index_witness :
  ∃ ov,
    result_of (serve (example_overview 1%Z) (example_world true)) = Returned ov
    ∧ documents_total ov = 3
    ∧ chunks_total ov = 3
    ∧ vector_index ov !! completed = Some 2
    ∧ vector_index ov !! failed = Some 1
    ∧ vector_index ov !! pending = None.
Proof.
  destruct (overview_totals_and_vector_index example_rank example_rank
              example_user 1%Z (example_world true))
    as (ov & Hr & Hd & Hc & Hv).
  { exists (example_source 1 true 100).
    split; [apply example_source_1_stored | reflexivity]. }
  exists ov. split; [exact Hr|]. rewrite Hd, Hc, !Hv.
  repeat split; vm_compute; reflexivity.
Defined.

Lemma overview_kg_index_witness :
  (∃ ov,
     result_of (serve (example_overview 2%Z) (example_world true)) = Returned ov
     ∧ kg_index ov = ∅)
  ∧ (∃ ov,
       result_of (serve (example_overview 1%Z) (example_world true)) = Returned ov
       ∧ kg_index ov !! completed = Some 2
       ∧ kg_index ov !! pending = None).
Proof.
  split.
  - destruct (overview_kg_index example_rank example_rank example_user
                (example_world true) (example_source 2 false 300)
                example_primary_key example_source_2_stored)
      as (ov & Hr & Hoff & _).
    exists ov. split; [exact Hr | apply Hoff; reflexivity].
  - destruct (overview_kg_index example_rank example_rank example_user
                (example_world true) (example_source 1 true 100)
                example_primary_key example_source_1_stored)
      as (ov & Hr & _ & Hon).
    exists ov. split; [exact Hr|]. rewrite !Hon by reflexivity.
    split; vm_compute; reflexivity.
Defined.

Lemma overview_no_documents_witness :
  result_of (serve (example_overview 3%Z) (example_world true))
  = Returned {| documents_total := 0;
                chunks_total := 0;
                kg_index := ∅;
                vector_index := ∅ |}.
Proof.
  apply (overview_no_documents example_rank example_rank example_user
           (example_world true) (example_source 3 true 200)
           example_source_3_stored).
  intros d Hd. cbn in Hd.
  repeat (apply elem_of_cons in Hd as [->|Hd]; [cbn; lia|]).
  by apply elem_of_nil in Hd.
Defined.

Lemma overview_sums_witness :
  ∃ ov,
    result_of (serve (example_overview 1%Z) (example_world true)) = Returned ov
    ∧ values_sum (vector_index ov) = 3
    ∧ values_sum (kg_index ov) = 3.
Proof.
  eexists. split; [exact example_overview_1|].
  destruct (overview_sums example_rank example_rank example_user 1%Z
              (example_world true) _ example_overview_1) as [Hv Hkg].
  split; [exact Hv|].
  exact (Hkg (example_source 1 true 100) eq_refl eq_refl).
Defined.

Lemma not_found_iff_absent_witness :
  response_status
    (result_of (serve (get_datasource example_user 1003%Z) (example_world true)))
  = HTTP_404_NOT_FOUND
  ∧ response_status
      (result_of (serve (example_overview 1003%Z) (example_world true)))
    = HTTP_404_NOT_FOUND
  ∧ result_of (serve (get_datasource example_user 2%Z) (example_world true))
    = Returned (example_source 2 false 300).
Proof.
  assert (¬ ∃ ds : DataSource,
            ds ∈ data_sources (db (example_world true)) ∧ ds_id ds = 1003%Z)
    as Habsent.
  { intros (ds & Hin & Hid). cbn in Hin.
    repeat (apply elem_of_cons in Hin as [->|Hin]; [cbn in Hid; lia|]).
    by apply elem_of_nil in Hin. }
  destruct (not_found_iff_absent example_rank example_rank example_user
              1003%Z (example_world true)) as (Hget & Hov & _).
  destruct (not_found_iff_absent example_rank example_rank example_user
              2%Z (example_world true)) as (_ & _ & Hfound).
  split; [by apply Hget|]. split; [by apply Hov|].
  exact (Hfound _ example_primary_key example_source_2_stored eq_refl).
Defined.

Lemma create_datasource_persists_and_dispatches_witness :
  ∃ ds,
    result_of (serve (create_datasource example_user example_request)
                 (example_world true)) = Returned ds
    ∧ ds_id ds = 4%Z
    ∧ ds_name ds = "handbook"
    ∧ ds_created_at ds = 400%Z
    ∧ queue (world_of (serve (create_datasource example_user example_request)
                         (example_world true))) = [4%Z].
Proof.
  destruct (create_datasource_persists_and_dispatches example_user
              example_request (example_world true) eq_refl)
    as (ds & Hr & Hrows & _ & _ & _ & _ & _ & Hname & _ & _ & _ & _ & Hat & _ & Hq).
  exists ds. split; [exact Hr|].
  split; [by injection Hr as <-|].
  split; [exact Hname|]. split; [exact Hat|].
  rewrite Hq. by injection Hr as <-.
Defined.

Lemma create_datasource_dispatch_failure_witness :
  response_status
    (result_of (serve (create_datasource example_user example_request)
                  (example_world false)))
  = HTTP_500_INTERNAL_SERVER_ERROR
  ∧ length (data_sources
              (db (world_of (serve (create_datasource example_user example_request)
                               (example_world false))))) = 4
  ∧ queue (world_of (serve (create_datasource example_user example_request)
                       (example_world false))) = [].
Proof.
  destruct (create_datasource_dispatch_failure example_user example_request
              (example_world false) eq_refl)
    as (ds & _ & Hstatus & Hrows & _ & _ & _ & _ & Hq).
  split; [exact Hstatus|]. split; [|exact Hq].
  rewrite Hrows, length_app. reflexivity.
Defined.

Lemma list_datasources_pages_witness :
  all_pages example_tie_order example_user (example_world true) 2
  ≡ₚ data_sources (db (example_world true))
  ∧ all_pages example_tie_order example_user example_tied_world 1
    ≡ₚ data_sources (db example_tied_world)
  ∧ ∃ pg,
      result_of (serve (list_datasources example_tie_order example_user
                          {| page := 2; size := 2 |}) (example_world true))
      = Returned pg
      ∧ total pg = 3
      ∧ pages pg = 2
      ∧ ds_created_at <$> items pg = [100%Z].
Proof.
  destruct (list_datasources_pages example_tie_order example_user
              (example_world true) 2 example_tie_order_contract)
    as (Hpage & _ & Hall); [lia|].
  destruct (list_datasources_pages example_tie_order example_user
              example_tied_world 1 example_tie_order_contract)
    as (_ & _ & Htied); [lia|].
  split; [|split].
  - apply Hall. left. cbn. apply (bool_decide_unpack _). reflexivity.
  - apply Htied. right. intros lo. reflexivity.
  - destruct (Hpage 2) as (pg & Hr & Htotal & _ & _ & Hpages & _ & _ & _ & Hkeys);
      [lia|].
    exists pg. split; [exact Hr|]. split; [exact Htotal|].
    split; [exact Hpages | exact Hkeys].
Defined.

(** ** Instances of the further properties *)

Definition example_created : @DataSource ExampleSourceType Z :=
  {| ds_id := 4;
     ds_name := "handbook";
     ds_description := "staff handbook";
     ds_data_source_type := file_upload;
     ds_config := ConfigDict [("path", JString "handbook.pdf")];
     ds_build_kg_index := false;
     ds_user_id := 7%Z;
     ds_created_at := 400 |}.

Definition example_handler :=
  create_datasource (DocIndexStatus := ExampleStatus)
    (KgIndexStatus := ExampleStatus) example_user example_request.

Definition example_after_create : World :=
  world_of (serve example_handler (example_world true)).

Lemma example_handler_returns :
  result_of (serve example_handler (example_world true)) = Returned example_created.
Proof. reflexivity. Defined.

Lemma example_foreign_key : documents_reference_data_sources (db (example_world true)).
Proof.
  intros d Hd. cbn in Hd.
  repeat (apply elem_of_cons in Hd as [->|Hd];
          [first [ exists (example_source 1 true 100);
                   split; [apply example_source_1_stored | reflexivity]
                 | exists (example_source 2 false 300);
                   split; [apply example_source_2_stored | reflexivity] ]|]).
  by apply elem_of_nil in Hd.
Defined.

Lemma example_tie_order_clock r :
  r ∈ data_sources (db (example_world true)) →
  (ds_created_at r < clock (example_world true))%Z.
Proof.
  intros Hr. cbn in Hr.
  repeat (apply elem_of_cons in Hr as [->|Hr]; [cbn; lia|]).
  by apply elem_of_nil in Hr.
Defined.

Lemma create_then_get_datasource_witness :
  result_of (serve (get_datasource example_user 4%Z) example_after_create)
  = Returned example_created
  ∧ response_status
      (result_of (serve (get_datasource example_user 4%Z) (example_world true)))
    = HTTP_404_NOT_FOUND.
Proof.
  exact (create_then_get_datasource example_user example_user example_request
           (example_world true) example_created example_handler_returns).
Defined.

Lemma create_preserves_existing_answers_witness :
  result_of (serve (get_datasource example_user 2%Z) example_after_create)
  = Returned (example_source 2 false 300)
  ∧ result_of (serve (example_overview 2%Z) example_after_create)
    = Returned {| documents_total := 1;
                  chunks_total := 1;
                  kg_index := ∅;
                  vector_index := {[ pending := 1 ]} |}.
Proof.
  destruct (create_preserves_existing_answers example_rank example_rank
              example_user example_user example_request (example_world true) 2%Z)
    as [Hget Hov].
  { exists (example_source 2 false 300).
    split; [apply example_source_2_stored | reflexivity]. }
  split.
  - etrans; [exact Hget | reflexivity].
  - etrans; [exact Hov | exact example_overview_2].
Defined.

Lemma create_preserves_primary_key_witness :
  primary_key_unique (db example_after_create).
Proof.
  exact (create_preserves_primary_key example_user example_request
           (example_world true) example_primary_key).
Defined.

Lemma create_then_overview_empty_witness :
  result_of (serve (example_overview 4%Z) example_after_create)
  = Returned {| documents_total := 0;
                chunks_total := 0;
                kg_index := ∅;
                vector_index := ∅ |}.
Proof.
  exact (create_then_overview_empty example_rank example_rank example_user
           example_user example_request (example_world true) example_created
           example_foreign_key example_handler_returns).
Defined.


Lemma overview_ignores_other_documents_witness :
  result_of (serve (example_overview 1%Z)
               (with_document (mkDocument 14 2 failed) (example_world true)))
  = Returned {| documents_total := 3;
                chunks_total := 3;
                kg_index := {[ completed := 2; failed := 1 ]};
                vector_index := {[ completed := 2; failed := 1 ]} |}.
Proof.
  etrans; [|exact example_overview_1].
  apply (overview_ignores_other_documents example_rank example_rank
           example_user 1%Z (mkDocument 14 2 failed) (example_world true)).
  cbn. lia.
Defined.

Lemma overview_entries_bounded_witness :
  ∃ ov,
    result_of (serve (example_overview 1%Z) (example_world true)) = Returned ov
    ∧ vector_index ov !! completed = Some 2
    ∧ 1 ≤ 2 ≤ documents_total ov
    ∧ kg_index ov !! failed = Some 1
    ∧ 1 ≤ 1 ≤ chunks_total ov.
Proof.
  eexists. split; [exact example_overview_1|].
  destruct (overview_entries_bounded example_rank example_rank example_user
              1%Z (example_world true) _ example_overview_1) as [Hv Hkg].
  split; [reflexivity|]. split; [exact (Hv completed 2 eq_refl)|].
  split; [reflexivity | exact (Hkg failed 1 eq_refl)].
Defined.

Lemma list_datasources_page_sound_witness :
  length (page_items example_tie_order example_user (example_world true) 2 2) ≤ 2
  ∧ NoDup (ds_id <$> page_items example_tie_order example_user
                       (example_world true) 2 2).
Proof.
  destruct (list_datasources_page_sound example_tie_order example_user
              (example_world true) 2 2 example_tie_order_contract)
    as (Hlen & _ & _ & Hnd); [lia | lia |].
  split; [exact Hlen | exact (Hnd example_primary_key)].
Defined.

Lemma list_datasources_page_beyond_last_witness :
  page_items example_tie_order example_user (example_world true) 2 3 = [].
Proof.
  apply (list_datasources_page_beyond_last example_tie_order example_user
           (example_world true) 2 3 example_tie_order_contract); [lia|].
  cbn. lia.
Defined.

Lemma list_datasources_pages_created_at_witness :
  StronglySorted created_at_desc
    (all_pages example_flaky_order example_user example_tied_world 1)
  ∧ length (all_pages example_flaky_order example_user example_tied_world 1) = 2.
Proof.
  destruct (list_datasources_pages_created_at example_flaky_order example_user
              example_tied_world 1 example_flaky_order_contract)
    as (Hsorted & Hlen & _); [lia|].
  split; [exact Hsorted | exact Hlen].
Defined.

Lemma create_then_listed_first_witness :
  ∃ pg rest,
    result_of (serve (list_datasources example_tie_order example_user
                        {| page := 1; size := 2 |}) example_after_create)
    = Returned pg
    ∧ items pg = example_created :: rest
    ∧ total pg = 4.
Proof.
  exact (create_then_listed_first example_tie_order example_user example_user
           example_request (example_world true) example_created 2
           example_tie_order_contract example_tie_order_clock
           ltac:(lia) example_handler_returns).
Defined.
